(** * Prediction retrieval and presentation (frontend/src/pages/Home.tsx,
      frontend/src/components/PriceChart.tsx, frontend/src/config.ts,
      frontend/src/components/Navbar.tsx)

    A shallow embedding of the parts of the frontend that carry control
    flow: the fetch routine of the [Home] component, its pagination
    helpers, its render function, the chart dataset and the tooltip of
    [PriceChart], the [config] module and the menu of [Navbar].

    Modelling conventions.
    - A JavaScript [number] holding an array length, a page index or a page
      size is an integer and is modelled in [Z].  A price is an IEEE 754
      double and is modelled by the primitive [float].
    - [Math.ceil (a / b)] on two such integers is modelled by the ceiling of
      the exact quotient in [Q].  For [0 <= a < 2^53] and [0 < b] the
      double quotient cannot cross an integer (a non-integral [a / b] is at
      least [1 / b] away from every integer, the rounding error is below
      that), so the two ceilings agree on every array length.
    - Values received from the backend are taken at the TypeScript types
      the source declares for them ([Prediction], [PredictionResponse]).
    - Services of the JavaScript runtime whose result depends on the locale
      (date and number formatting) are parameters of the development.
    - The state hooks are React's: the cells of a view hold their initial
      values at mount, a setter call updates its cell while the view is
      mounted and is dropped afterwards. *)

From Stdlib Require Import ZArith QArith Qround List String Bool Lia Floats.
Import ListNotations.

Set Implicit Arguments.

Local Open Scope string_scope.
Local Open Scope list_scope.
Local Open Scope Z_scope.

(** ** Data model (Home.tsx, lines 5-15) *)

(** [interface Prediction { Date: string; Predicted_Price: number }] *)
Record Prediction : Type := mkPrediction {
  Date : string;
  Predicted_Price : float
}.

(** ** JavaScript array primitives *)

(** [Array.prototype.slice (start, end)] for integral arguments, following
    ECMAScript: a negative index counts from the end of the array, every
    index is clipped to [0, len], and the result is empty when the final
    index does not exceed the first one. *)
Definition slice (A : Type) (l : list A) (start end_ : Z) : list A :=
  let len := Z.of_nat (List.length l) in
  let k := if start <? 0 then Z.max (len + start) 0 else Z.min start len in
  let final := if end_ <? 0 then Z.max (len + end_) 0 else Z.min end_ len in
  let count := Z.max (final - k) 0 in
  firstn (Z.to_nat count) (skipn (Z.to_nat k) l).

(** [Math.ceil (a / b)] on integral [a] and [b]. *)
Definition Math_ceil_div (a b : Z) : Z := Qceiling (inject_Z a / inject_Z b).

(** ** Paginator (Home.tsx, lines 47-55) *)

(** [const itemsPerPage = 8;] *)
Definition itemsPerPage : Z := 8.

(** [const totalPages = Math.ceil(predictions.length / itemsPerPage);]
    with the page size as a parameter. *)
Definition totalPages (pageSize : Z) (predictions : list Prediction) : Z :=
  Math_ceil_div (Z.of_nat (List.length predictions)) pageSize.

(** [getCurrentItems], with the page size and the page index as
    parameters. *)
Definition getCurrentItems (pageSize currentPage : Z)
    (predictions : list Prediction) : list Prediction :=
  let start := currentPage * pageSize in
  let end_ := start + pageSize in
  slice predictions start end_.

(** The visible slices of the pages [0, 1, ..., n-1], in index order. *)
Definition pages (pageSize : Z) (n : nat) (predictions : list Prediction)
    : list (list Prediction) :=
  map (fun i => getCurrentItems pageSize (Z.of_nat i) predictions) (seq 0 n).


(** ** Backend payload (Home.tsx, lines 10-15) *)

(** [interface PredictionResponse]; the optional [message?: string] is an
    [option]. *)
Module PredictionResponse.
Record t : Type := make {
  success : bool;
  predictions : list Prediction;
  plot_url : string;
  message : option string
}.
End PredictionResponse.

(** ** Completions, and effects of an asynchronous routine *)

(** How an awaited operation ends: with a value, or by throwing (a rejected
    promise rethrows at the [await]). The payload of [Throw] is the text of
    the thrown error. *)
Inductive Completion (A : Type) : Type :=
| Normal (a : A)
| Throw (reason : string).
Arguments Normal {A} a.
Arguments Throw {A} reason.

(** What [fetch] resolves to: the HTTP status and what [response.json()]
    resolves to, which throws when the body is not JSON. *)
Record Response : Type := mkResponse {
  status : Z;
  json : Completion PredictionResponse.t
}.

(** The network as the routine sees it: from a URL to what [fetch (url)]
    settles to. *)
Definition Network : Type := string -> Completion Response.

(** The calls a routine can make on the state hooks of [Home]
    (Home.tsx, lines 18-22). *)
Inductive SetterCall : Type :=
| setLoading (b : bool)
| setError (e : option string)
| setPredictions (l : list Prediction)
| setPlotUrl (s : string)
| setCurrentPage (n : Z).

(** A routine with effects: the setter calls it makes, in order, and how it
    completes. Calls made before a throw stay made. *)
Definition Async (A : Type) : Type := (list SetterCall * Completion A)%type.

Definition ret (A : Type) (a : A) : Async A := ([], Normal a).

Definition bind (A B : Type) (m : Async A) (k : A -> Async B) : Async B :=
  match m with
  | (calls, Normal a) => let (calls', r) := k a in (calls ++ calls', r)
  | (calls, Throw e) => (calls, Throw e)
  end.

Definition call (c : SetterCall) : Async unit := ([c], Normal tt).

Definition await (A : Type) (c : Completion A) : Async A := ([], c).

(** [try { body } catch (err) { handler } finally { final }]: the handler
    runs when the body throws, the final block always runs, and a throw of
    the final block replaces the completion of what went before. *)
Definition try_catch_finally (A : Type) (body : Async A)
    (handler : string -> Async A) (final : Async unit) : Async A :=
  let (calls1, r1) := body in
  let (calls2, r2) :=
    match r1 with
    | Normal a => ([], Normal a)
    | Throw err => handler err
    end in
  let (calls3, r3) := final in
  (calls1 ++ calls2 ++ calls3,
   match r3 with
   | Normal _ => r2
   | Throw e => Throw e
   end).

Declare Scope async_scope.
Delimit Scope async_scope with async.
Notation "x <- m ;; k" := (bind m (fun x => k))
  (at level 61, m at next level, right associativity) : async_scope.
Notation "m ;; k" := (bind m (fun _ => k))
  (at level 61, right associativity) : async_scope.

(** [a || b] on [string | undefined] operands: the left operand when it is
    truthy (present and not the empty string), else the right one. *)
Definition logical_or (a : option string) (b : string) : string :=
  match a with
  | Some s => if (s =? "")%string then b else s
  | None => b
  end.

(** ** The fetch routine (Home.tsx, lines 26-42) *)

Definition fetchPredictions_body (fetch : Network) : Async unit :=
  (response <- await (fetch "http://localhost:5000/api/predictions") ;;
   data <- await (json response) ;;
   if PredictionResponse.success data then
     call (setPredictions (PredictionResponse.predictions data)) ;;
     call (setPlotUrl ("http://localhost:5000" ++ PredictionResponse.plot_url data)%string)
   else
     call (setError (Some (logical_or (PredictionResponse.message data)
                                      "Failed to fetch predictions"))))%async.

Definition fetchPredictions (fetch : Network) : Async unit :=
  try_catch_finally
    (fetchPredictions_body fetch)
    (fun err => call (setError (Some "Error connecting to the server")))
    (call (setLoading false)).

(** The two literals of the routine that the statements below name: the
    URL given to [fetch] (line 28) and the text set by the [catch] block
    (line 38). *)
Definition endpoint : string := "http://localhost:5000/api/predictions".
Definition connectivity_message : string := "Error connecting to the server".

(** ** Component state (Home.tsx, lines 18-22) *)

Record HomeState : Type := mkHomeState {
  loading : bool;
  error : option string;
  predictions : list Prediction;
  plotUrl : string;
  currentPage : Z
}.

(** The initial values given to [useState]. *)
Definition initialState : HomeState :=
  {| loading := true; error := None; predictions := []; plotUrl := "";
     currentPage := 0 |}.

(** The effect of one setter call on the state. *)
Definition apply_call (st : HomeState) (c : SetterCall) : HomeState :=
  match c with
  | setLoading b =>
      {| loading := b; error := error st; predictions := predictions st;
         plotUrl := plotUrl st; currentPage := currentPage st |}
  | setError e =>
      {| loading := loading st; error := e; predictions := predictions st;
         plotUrl := plotUrl st; currentPage := currentPage st |}
  | setPredictions l =>
      {| loading := loading st; error := error st; predictions := l;
         plotUrl := plotUrl st; currentPage := currentPage st |}
  | setPlotUrl s =>
      {| loading := loading st; error := error st; predictions := predictions st;
         plotUrl := s; currentPage := currentPage st |}
  | setCurrentPage n =>
      {| loading := loading st; error := error st; predictions := predictions st;
         plotUrl := plotUrl st; currentPage := n |}
  end.

Definition apply_calls (st : HomeState) (calls : list SetterCall) : HomeState :=
  fold_left apply_call calls st.

(** The state of a mounted [Home] once the routine started by its effect
    has run to its end against the network [fetch]. *)
Definition state_after_fetch (fetch : Network) : HomeState :=
  apply_calls initialState (fst (fetchPredictions fetch)).

(** ** Configuration module (config.ts) *)

Module config.
(** [apiUrl], as a function of [process.env.NODE_ENV]. *)
Definition apiUrl (NODE_ENV : option string) : string :=
  if match NODE_ENV with
     | Some mode => (mode =? "production")%string
     | None => false
     end
  then "https://btc-predictor-backend.onrender.com"
  else "http://localhost:10000".
End config.

(** ** Locale services of the runtime *)

(** [new Date(s).toLocaleDateString()] and
    [x.toLocaleString(undefined, {minimumFractionDigits: 2,
    maximumFractionDigits: 2})] depend on the locale and the time zone of
    the runtime. *)
Class Locale : Type := {
  toLocaleDateString : string -> string;
  toLocaleString : float -> string
}.

(** [Array.prototype.map] with a callback that also takes the index. *)
Definition Array_map_indexed (A B : Type) (f : A -> nat -> B) (l : list A)
    : list B :=
  map (fun ix => f (snd ix) (fst ix)) (combine (seq 0 (List.length l)) l).

(** ** Chart dataset (PriceChart.tsx, lines 89-106) *)

(** One entry of [datasets]; the colour and shape settings of the line are
    constants and carry no data. *)
Record Dataset : Type := mkDataset {
  data : list float
}.

Record ChartData : Type := mkChartData {
  labels : list string;
  datasets : list Dataset
}.

(** [const data = { labels: ..., datasets: [ { data: ..., ... } ] }] *)
Definition PriceChart_data `{Locale} (predictions : list Prediction) : ChartData :=
  {| labels := map (fun p => toLocaleDateString (Date p)) predictions;
     datasets := [ {| data := map (fun p => Predicted_Price p) predictions |} ] |}.

(** The values plotted: the [data] of every dataset, in order. *)
Definition chart_values (c : ChartData) : list float :=
  flat_map data (datasets c).

(** ** What [Home] renders (Home.tsx, lines 57-175) *)

(** A row of the table body. *)
Record Row : Type := mkRow {
  key : nat;
  date_cell : string;
  price_cell : string
}.

Inductive View : Type :=
| Spinner
| ErrorPanel (text : string)
| Dashboard (chart : ChartData) (tbody : list Row).

(** Truthiness of a [string | null]. *)
Definition truthy (e : option string) : bool :=
  match e with
  | Some s => negb (s =? "")%string
  | None => false
  end.

(** The row built by the callback of [predictions.map]
    (Home.tsx, lines 112-124). *)
Definition table_row `{Locale} (p : Prediction) (index : nat) : Row :=
  {| key := index;
     date_cell := toLocaleDateString (Date p);
     price_cell := ("$" ++ toLocaleString (Predicted_Price p))%string |}.

(** The body of the component after the hooks, with the page size as a
    parameter. [totalPages] and [getCurrentItems] are bound as in the source
    (lines 48 and 51-55). *)
Definition Home_render `{Locale} (pageSize : Z) (st : HomeState) : View :=
  let totalPages := totalPages pageSize (predictions st) in
  let getCurrentItems :=
    fun _ : unit => getCurrentItems pageSize (currentPage st) (predictions st) in
  if loading st then Spinner
  else if truthy (error st) then
    ErrorPanel (match error st with Some s => s | None => "" end)
  else
    Dashboard (PriceChart_data (predictions st))
              (Array_map_indexed table_row (predictions st)).

Definition Home `{Locale} (st : HomeState) : View := Home_render itemsPerPage st.

(** The table body of a view; nothing outside the dashboard. *)
Definition tbody_of (v : View) : list Row :=
  match v with
  | Dashboard _ rows => rows
  | _ => []
  end.

(** ** Life cycle of one view of [Home] (Home.tsx, lines 18-45) *)

(** The state hooks and the effect are React's. Their rules, as far as the
    component relies on them:
    - at mount every [useState] cell holds its initial value, and the
      effect, whose dependency list is empty, runs once: it starts
      [fetchPredictions ()], which suspends at its request;
    - the effect returns nothing, so unmounting runs no cleanup: the
      request stays outstanding, and the rest of the routine still runs
      when the request settles;
    - a setter call updates its cell while the view is mounted, and is
      dropped once the view is unmounted;
    - a view mounted anew is another view, with cells and a routine of its
      own, so one life is one mount followed by the events below. *)
Inductive Event : Type :=
| Unmount
| Settle (fetch : Network).

(** A view: whether it is in the tree, whether its routine still awaits
    the request, its state cells, every setter call its routine has made,
    and the state after each update that was applied, which is what an
    observer of the state gets to see. *)
Record Instance : Type := mkInstance {
  mounted : bool;
  outstanding : bool;
  cells : HomeState;
  calls_made : list SetterCall;
  updates : list HomeState
}.

(** The view right after its mount. *)
Definition mount : Instance :=
  {| mounted := true; outstanding := true; cells := initialState;
     calls_made := []; updates := [] |}.

(** One setter call made on a view. *)
Definition dispatch (i : Instance) (c : SetterCall) : Instance :=
  if mounted i then
    {| mounted := true; outstanding := outstanding i;
       cells := apply_call (cells i) c;
       calls_made := calls_made i ++ [c];
       updates := updates i ++ [apply_call (cells i) c] |}
  else
    {| mounted := false; outstanding := outstanding i;
       cells := cells i;
       calls_made := calls_made i ++ [c];
       updates := updates i |}.

(** [Settle fetch] is the moment the request of the outstanding routine
    settles, [fetch] telling to what; the rest of the routine then runs and
    makes its setter calls. *)
Definition step (i : Instance) (ev : Event) : Instance :=
  match ev with
  | Unmount =>
      {| mounted := false; outstanding := outstanding i; cells := cells i;
         calls_made := calls_made i; updates := updates i |}
  | Settle fetch =>
      if outstanding i then
        fold_left dispatch (fst (fetchPredictions fetch))
          {| mounted := mounted i; outstanding := false; cells := cells i;
             calls_made := calls_made i; updates := updates i |}
      else i
  end.

Definition run (events : list Event) : Instance := fold_left step events mount.

(** ** Chart tooltip (PriceChart.tsx, lines 52-59) *)

(** The [label] callback of the tooltip, applied to [context.parsed.y],
    the plotted value under the pointer. *)
Definition tooltip_label `{Locale} (y : float) : string :=
  ("$" ++ toLocaleString y)%string.

(** ** Navigation bar (Navbar.tsx, lines 5-42) *)

(** A rendered [Link]. *)
Record NavLink : Type := mkNavLink {
  to : string;
  className : string;
  caption : string
}.

(** The class of a menu link: the template literal of lines 19-23 and
    29-33, as a function of the test it embeds. *)
Definition menu_className (active : bool) : string :=
  ("px-3 py-2 rounded-md text-sm font-medium " ++
   (if active then "bg-gray-900 text-white"
    else "text-gray-300 hover:bg-gray-700 hover:text-white"))%string.

(** The two links of the menu, in document order, as a function of
    [location.pathname]. *)
Definition Navbar_menu (pathname : string) : list NavLink :=
  [ {| to := "/";
       className := menu_className (pathname =? "/")%string;
       caption := "Home" |};
    {| to := "/about";
       className := menu_className (pathname =? "/about")%string;
       caption := "About" |} ].

(** A menu link is highlighted when it carries the class of the active
    branch. *)
Definition highlighted (l : NavLink) : bool :=
  (className l =? menu_className true)%string.

(** ** Specification-side definitions *)

(** The three states of the specification (section 3), read off the
    component state in the order the render function tests it. *)
Inductive RetrievalState : Type :=
| Loading
| Error (reason : string)
| Ready (series : list Prediction) (chartSourceUrl : string).

Definition retrievalState (st : HomeState) : RetrievalState :=
  if loading st then Loading
  else if truthy (error st) then
    Error (match error st with Some s => s | None => "" end)
  else Ready (predictions st) (plotUrl st).

(** What the specification asks of an out-of-range page index (section
    4.3): clamp to the nearest valid index, [0] below the range and
    [pageCount - 1] above it, and show nothing when there is no page. *)
Definition clamped_visible (pageSize pageIndex : Z)
    (predictions : list Prediction) : list Prediction :=
  let pageCount := totalPages pageSize predictions in
  if pageCount <=? 0 then []
  else if pageIndex <? 0 then getCurrentItems pageSize 0 predictions
  else if pageCount <=? pageIndex then getCurrentItems pageSize (pageCount - 1) predictions
  else getCurrentItems pageSize pageIndex predictions.

(** The URL the specification expects the request to go to (sections 4.1
    and 6): the configured base location, then the endpoint path. *)
Definition configured_endpoint (NODE_ENV : option string) : string :=
  (config.apiUrl NODE_ENV ++ "/api/predictions")%string.

(** The chart source the specification expects: the configured base
    location, then the payload's relative reference. *)
Definition configured_chart_source (NODE_ENV : option string)
    (plot_url : string) : string :=
  (config.apiUrl NODE_ENV ++ plot_url)%string.

(** ** Sample data *)

(** Scenario A's payload point. *)
Definition point_2024_01_01 : Prediction :=
  mkPrediction "2024-01-01" 42000.5%float.

(** A series of seventeen daily points (Scenario D). *)
Definition series17 : list Prediction := [
  mkPrediction "2024-01-01" 42100.5%float;
  mkPrediction "2024-01-02" 42200.5%float;
  mkPrediction "2024-01-03" 42300.5%float;
  mkPrediction "2024-01-04" 42400.5%float;
  mkPrediction "2024-01-05" 42500.5%float;
  mkPrediction "2024-01-06" 42600.5%float;
  mkPrediction "2024-01-07" 42700.5%float;
  mkPrediction "2024-01-08" 42800.5%float;
  mkPrediction "2024-01-09" 42900.5%float;
  mkPrediction "2024-01-10" 43000.5%float;
  mkPrediction "2024-01-11" 43100.5%float;
  mkPrediction "2024-01-12" 43200.5%float;
  mkPrediction "2024-01-13" 43300.5%float;
  mkPrediction "2024-01-14" 43400.5%float;
  mkPrediction "2024-01-15" 43500.5%float;
  mkPrediction "2024-01-16" 43600.5%float;
  mkPrediction "2024-01-17" 43700.5%float
].

(** Scenario A's payload, and Scenario B's with and without a message. The
    fields a failure payload leaves out are never read on that path. *)
Definition payload_A : PredictionResponse.t :=
  PredictionResponse.make true [point_2024_01_01] "/plot.png" None.

Definition payload_B : PredictionResponse.t :=
  PredictionResponse.make false [] "" (Some "model not trained").

Definition payload_B_silent : PredictionResponse.t :=
  PredictionResponse.make false [] "" None.

(** A network on which every request settles to the same completion. *)
Definition settles_to (c : Completion Response) : Network := fun _ => c.

(** A network on which the backend answers at one URL only; a request to
    any other URL is rejected. *)
Definition backend_at (url : string) (r : Response) : Network :=
  fun u => if (u =? url)%string then Normal r else Throw "Failed to fetch".

(** A network with no backend in reach. *)
Definition unreachable : Network := settles_to (Throw "Failed to fetch").

(** A stand-in locale for evaluating examples: a date is shown as
    received, a price by a fixed text. *)
Definition plain_locale : Locale :=
  {| toLocaleDateString := fun s => s; toLocaleString := fun _ => "0.00" |}.

(** ** Facts about [firstn], [skipn] and [slice] *)

Lemma firstn_plus (A : Type) (a b : nat) (l : list A) :
  firstn (a + b) l = firstn a l ++ firstn b (skipn a l).
Proof.
  revert l; induction a as [|a IH]; intros [|x l]; simpl; trivial.
  - now rewrite firstn_nil.
  - now rewrite IH.
Qed.

Lemma slice_nonneg (A : Type) (l : list A) (s e : Z) :
  0 <= s -> s <= e ->
  slice l s e = firstn (Z.to_nat (e - s)) (skipn (Z.to_nat s) l).
Proof.
  intros Hs He. unfold slice.
  destruct (Z.ltb_spec s 0) as [|_]; [lia|].
  destruct (Z.ltb_spec e 0) as [|_]; [lia|].
  set (len := Z.of_nat (List.length l)).
  destruct (Z.le_gt_cases len s) as [Hout|Hin].
  - (* the slice starts at or after the end of the array *)
    rewrite !skipn_all2 by lia. now rewrite !firstn_nil.
  - rewrite (Z.min_l s len) by lia.
    destruct (Z.le_gt_cases e len) as [Hfit|Hover].
    + rewrite (Z.min_l e len), Z.max_l by lia. reflexivity.
    + rewrite (Z.min_r e len), Z.max_l by lia.
      rewrite !firstn_all2; trivial; rewrite length_skipn; lia.
Qed.

Lemma slice_empty_array (A : Type) (s e : Z) : slice (@nil A) s e = [].
Proof. unfold slice. rewrite skipn_nil. apply firstn_nil. Qed.

(** ** Facts about [Math_ceil_div] *)

Lemma Math_ceil_div_bounds (a b : Z) :
  0 < b -> (Math_ceil_div a b - 1) * b < a <= Math_ceil_div a b * b.
Proof.
  intros Hb. unfold Math_ceil_div.
  set (q := (inject_Z a / inject_Z b)%Q).
  assert (Hbq : (0 < inject_Z b)%Q) by (change 0%Q with (inject_Z 0); rewrite <- Zlt_Qlt; exact Hb).
  assert (Hne : ~ (inject_Z b == 0)%Q) by (intro E; rewrite E in Hbq; discriminate).
  assert (Ha : (q * inject_Z b == inject_Z a)%Q)
    by (unfold q; field; exact Hne).
  pose proof (Qle_ceiling q) as Hup.
  pose proof (Qceiling_lt q) as Hlo.
  split.
  - rewrite Zlt_Qlt, inject_Z_mult, <- Ha.
    apply Qmult_lt_compat_r; assumption.
  - rewrite Zle_Qle, inject_Z_mult, <- Ha.
    apply Qmult_le_compat_r; [assumption | now apply Qlt_le_weak].
Qed.

Lemma Math_ceil_div_unique (a b n : Z) :
  0 < b -> (n - 1) * b < a <= n * b -> Math_ceil_div a b = n.
Proof.
  intros Hb Hn. pose proof (Math_ceil_div_bounds a Hb) as Hc. nia.
Qed.

(** ** Paginator: page count *)

Lemma totalPages_nil (pageSize : Z) : totalPages pageSize [] = 0.
Proof. unfold totalPages, Math_ceil_div. simpl. now destruct pageSize. Qed.

Lemma totalPages_covers (pageSize : Z) (predictions : list Prediction) :
  0 < pageSize ->
  (List.length predictions <= Z.to_nat (totalPages pageSize predictions) * Z.to_nat pageSize)%nat.
Proof.
  intros Hp. unfold totalPages.
  pose proof (Math_ceil_div_bounds (Z.of_nat (List.length predictions)) Hp) as [_ Hup].
  nia.
Qed.

(** C6. For every series of length [L >= 0] and every page size
    [pageSize > 0], [totalPages] is the ceiling of [L / pageSize]: it is the
    one integer [n] with [(n - 1) * pageSize < L <= n * pageSize], it equals
    the integer quotient [(L + pageSize - 1) / pageSize], and it is [0] for
    the empty series. *)
Theorem totalPages_is_ceiling (pageSize : Z) (predictions : list Prediction) :
  0 < pageSize ->
  let L := Z.of_nat (List.length predictions) in
  let n := totalPages pageSize predictions in
  ((n - 1) * pageSize < L <= n * pageSize) /\
  (forall m : Z, (m - 1) * pageSize < L <= m * pageSize -> m = n) /\
  n = (L + pageSize - 1) / pageSize /\
  totalPages pageSize [] = 0.
Proof.
  intros Hp L n.
  assert (Hb : (n - 1) * pageSize < L <= n * pageSize)
    by (apply Math_ceil_div_bounds; exact Hp).
  split; [exact Hb | split; [ | split; [ | apply totalPages_nil]]].
  - intros m Hm. destruct (Z.lt_trichotomy m n) as [Hlt|[Heq|Hgt]]; [nia|exact Heq|nia].
  - apply Z.div_unique with (r := L + pageSize - 1 - n * pageSize); lia.
Qed.

Lemma totalPages_is_ceiling_witness :
  let L := Z.of_nat (List.length series17) in
  let n := totalPages 8 series17 in
  ((n - 1) * 8 < L <= n * 8) /\
  (forall m : Z, (m - 1) * 8 < L <= m * 8 -> m = n) /\
  n = (L + 8 - 1) / 8 /\
  totalPages 8 [] = 0.
Proof. apply (@totalPages_is_ceiling 8 series17). reflexivity. Defined.

(** Scenario D: seventeen points at eight per page make three pages, and
    the page of index 2 holds the seventeenth point alone. *)
Example scenario_D :
  totalPages itemsPerPage series17 = 3 /\
  getCurrentItems itemsPerPage 2 series17 = [mkPrediction "2024-01-17" 43700.5%float].
Proof. split; reflexivity. Qed.

(** ** Paginator: the pages partition the series *)

Lemma getCurrentItems_in_range (pageSize : Z) (i : nat) (predictions : list Prediction) :
  0 < pageSize ->
  getCurrentItems pageSize (Z.of_nat i) predictions =
  firstn (Z.to_nat pageSize) (skipn (i * Z.to_nat pageSize) predictions).
Proof.
  intros Hp. unfold getCurrentItems.
  rewrite slice_nonneg by nia.
  f_equal; [f_equal; lia | f_equal; nia].
Qed.

Lemma pages_prefix (pageSize : Z) (n : nat) (predictions : list Prediction) :
  0 < pageSize ->
  List.concat (pages pageSize n predictions) = firstn (n * Z.to_nat pageSize) predictions.
Proof.
  intros Hp. unfold pages. induction n as [|n IH].
  - reflexivity.
  - rewrite seq_S, map_app, concat_app, IH. simpl.
    rewrite app_nil_r, getCurrentItems_in_range by assumption.
    rewrite <- firstn_plus. f_equal. lia.
Qed.

(** C1. For every series and every [pageSize > 0], concatenating the
    visible slices of the pages [0, 1, ..., totalPages - 1] in index order
    gives back the series itself: no point is duplicated, none is left
    out. *)
Theorem pages_reconstruct_series (pageSize : Z) (predictions : list Prediction) :
  0 < pageSize ->
  List.concat (pages pageSize (Z.to_nat (totalPages pageSize predictions)) predictions)
  = predictions.
Proof.
  intros Hp. rewrite pages_prefix by assumption.
  apply firstn_all2. now apply totalPages_covers.
Qed.

Lemma pages_reconstruct_series_witness :
  List.concat (pages 8 (Z.to_nat (totalPages 8 series17)) series17) = series17.
Proof. apply (@pages_reconstruct_series 8 series17). reflexivity. Defined.

(** ** Paginator: page indices outside [0, totalPages) *)

(** C3, as stated, fails: [getCurrentItems] does not clamp.  With seventeen
    points at eight per page, the page index 3 (one past the last page)
    shows nothing instead of the last page, and the page index -2 shows the
    points 2 to 9 instead of the first page. *)
Lemma getCurrentItems_does_not_clamp :
  getCurrentItems 8 3 series17 = [] /\
  getCurrentItems 8 3 series17 <> clamped_visible 8 3 series17 /\
  getCurrentItems 8 (-2) series17 <> clamped_visible 8 (-2) series17.
Proof.
  split; [reflexivity | split]; vm_compute; discriminate.
Qed.

Lemma totalPages_nonneg (pageSize : Z) (predictions : list Prediction) :
  0 < pageSize -> 0 <= totalPages pageSize predictions.
Proof.
  intros Hp. unfold totalPages.
  pose proof (Math_ceil_div_bounds (Z.of_nat (List.length predictions)) Hp). nia.
Qed.

(** C3, amended. For every series and every [pageSize > 0], a page index
    outside [0, totalPages) is served without failure and without
    clamping: the slice is empty when the index is [totalPages] or more,
    empty when the index is [-1], and for an index of [-2] or less it is
    the run of points at the positions
    [max (L + pageIndex * pageSize) 0, max (L + (pageIndex + 1) * pageSize) 0)
    of the series, [L] being its length; on the empty series the slice is
    empty for every index. *)
Theorem getCurrentItems_outside_range (pageSize pageIndex : Z)
    (predictions : list Prediction) :
  0 < pageSize ->
  let L := Z.of_nat (List.length predictions) in
  let lo := Z.max (L + pageIndex * pageSize) 0 in
  let hi := Z.max (L + (pageIndex + 1) * pageSize) 0 in
  (totalPages pageSize predictions <= pageIndex ->
     getCurrentItems pageSize pageIndex predictions = []) /\
  (pageIndex = -1 -> getCurrentItems pageSize pageIndex predictions = []) /\
  (pageIndex <= -2 ->
     getCurrentItems pageSize pageIndex predictions =
     firstn (Z.to_nat (hi - lo)) (skipn (Z.to_nat lo) predictions)) /\
  getCurrentItems pageSize pageIndex [] = [].
Proof.
  intros Hp L lo hi. repeat apply conj.
  - intros Hfar.
    pose proof (totalPages_nonneg predictions Hp) as Hn.
    pose proof (totalPages_covers predictions Hp) as Hcov.
    unfold getCurrentItems. rewrite slice_nonneg by nia.
    rewrite skipn_all2 by nia. apply firstn_nil.
  - intros ->. unfold getCurrentItems, slice.
    destruct (Z.ltb_spec (-1 * pageSize) 0) as [_|]; [|lia].
    destruct (Z.ltb_spec (-1 * pageSize + pageSize) 0) as [|_]; [lia|].
    match goal with
    | |- firstn (Z.to_nat ?count) _ = _ => replace count with 0 by lia
    end.
    reflexivity.
  - intros Hneg. unfold getCurrentItems, slice. fold L.
    replace (pageIndex * pageSize <? 0) with true by (symmetry; apply Z.ltb_lt; nia).
    replace (pageIndex * pageSize + pageSize <? 0) with true
      by (symmetry; apply Z.ltb_lt; nia).
    replace (pageIndex * pageSize + pageSize) with ((pageIndex + 1) * pageSize) by lia.
    fold lo hi. rewrite (Z.max_l (hi - lo) 0); [reflexivity|].
    unfold hi, lo. nia.
  - unfold getCurrentItems. apply slice_empty_array.
Qed.

Lemma getCurrentItems_outside_range_witness :
  getCurrentItems 8 3 series17 = [] /\
  getCurrentItems 8 (-3) series17 = firstn 1 series17.
Proof.
  pose proof (@getCurrentItems_outside_range 8 3 series17 eq_refl) as Habove.
  pose proof (@getCurrentItems_outside_range 8 (-3) series17 eq_refl) as Hbelow.
  split.
  - destruct Habove as (Hfar & _). apply Hfar. vm_compute. discriminate.
  - destruct Hbelow as (_ & _ & Hwin & _). rewrite Hwin by lia. reflexivity.
Defined.

(** ** The fetch routine: calls made and final state *)

Lemma fetchPredictions_calls (fetch : Network) :
  fst (fetchPredictions fetch) =
  match fetch endpoint with
  | Throw _ => [setError (Some connectivity_message); setLoading false]
  | Normal r =>
      match json r with
      | Throw _ => [setError (Some connectivity_message); setLoading false]
      | Normal d =>
          if PredictionResponse.success d then
            [setPredictions (PredictionResponse.predictions d);
             setPlotUrl ("http://localhost:5000" ++ PredictionResponse.plot_url d)%string;
             setLoading false]
          else
            [setError (Some (logical_or (PredictionResponse.message d)
                                        "Failed to fetch predictions"));
             setLoading false]
      end
  end.
Proof.
  unfold fetchPredictions, fetchPredictions_body, endpoint.
  destruct (fetch _) as [r|e]; simpl; [|reflexivity].
  destruct (json r) as [d|e]; simpl; [|reflexivity].
  destruct (PredictionResponse.success d); reflexivity.
Qed.

Lemma fetchPredictions_completes (fetch : Network) :
  snd (fetchPredictions fetch) = Normal tt.
Proof.
  unfold fetchPredictions, fetchPredictions_body.
  destruct (fetch _) as [r|e]; simpl; [|reflexivity].
  destruct (json r) as [d|e]; simpl; [|reflexivity].
  destruct (PredictionResponse.success d); reflexivity.
Qed.

Lemma fetchPredictions_body_throws (fetch : Network) (reason : string) :
  snd (fetchPredictions_body fetch) = Throw reason ->
  fetch endpoint = Throw reason \/
  exists r, fetch endpoint = Normal r /\ json r = Throw reason.
Proof.
  unfold fetchPredictions_body, endpoint.
  destruct (fetch _) as [r|e]; simpl.
  - destruct (json r) as [d|e] eqn:Hj; simpl.
    + destruct (PredictionResponse.success d); discriminate.
    + intros [= ->]. right. now exists r.
  - intros [= ->]. now left.
Qed.

Lemma logical_or_nonempty (a : option string) (b : string) :
  b <> "" -> (logical_or a b =? "")%string = false.
Proof.
  intros Hb. unfold logical_or. destruct a as [s|].
  - destruct (s =? "")%string eqn:Hs; [now apply String.eqb_neq | exact Hs].
  - now apply String.eqb_neq.
Qed.

(** The state of the specification reached once the routine has run. *)
Lemma retrievalState_after_fetch (fetch : Network) :
  retrievalState (state_after_fetch fetch) =
  match fetch endpoint with
  | Throw _ => Error connectivity_message
  | Normal r =>
      match json r with
      | Throw _ => Error connectivity_message
      | Normal d =>
          if PredictionResponse.success d then
            Ready (PredictionResponse.predictions d)
                  ("http://localhost:5000" ++ PredictionResponse.plot_url d)%string
          else
            Error (logical_or (PredictionResponse.message d)
                              "Failed to fetch predictions")
      end
  end.
Proof.
  unfold state_after_fetch. rewrite fetchPredictions_calls.
  destruct (fetch endpoint) as [r|e]; [|reflexivity].
  destruct (json r) as [d|e]; [|reflexivity].
  destruct (PredictionResponse.success d); [reflexivity|].
  unfold retrievalState, apply_calls; simpl.
  now rewrite logical_or_nonempty.
Qed.

(** Scenario A: the success payload leads to [Ready]; page 0 at eight per
    page shows its one point; the chart has one label and one value. *)
Example scenario_A :
  let st := state_after_fetch (settles_to (Normal (mkResponse 200 (Normal payload_A)))) in
  retrievalState st = Ready [point_2024_01_01] "http://localhost:5000/plot.png" /\
  getCurrentItems itemsPerPage (currentPage st) (predictions st) = [point_2024_01_01] /\
  labels (@PriceChart_data plain_locale (predictions st)) = ["2024-01-01"] /\
  chart_values (@PriceChart_data plain_locale (predictions st)) = [42000.5%float].
Proof. repeat split. Qed.

(** ** Failure reported by the backend *)

(** C4, as stated, fails: with the success flag false and no message, the
    reason shown is "Failed to fetch predictions", which is not the
    connectivity message (in either capitalisation). *)
Lemma silent_failure_fallback_text :
  let st := state_after_fetch (settles_to (Normal (mkResponse 200 (Normal payload_B_silent)))) in
  retrievalState st = Error "Failed to fetch predictions" /\
  retrievalState st <> Error "Error connecting to the server" /\
  retrievalState st <> Error "error connecting to the server".
Proof. split; [reflexivity | split; vm_compute; discriminate]. Qed.

(** C4, amended. When the payload has the success flag false, the final
    state is [Error], carrying the backend's message when one is present
    and not empty, and otherwise the fallback text "Failed to fetch
    predictions"; the payload [{success: false, message: "model not
    trained"}] gives [Error "model not trained"]. *)
Theorem server_reported_failure (fetch : Network) (r : Response)
    (d : PredictionResponse.t) :
  fetch endpoint = Normal r ->
  json r = Normal d ->
  PredictionResponse.success d = false ->
  retrievalState (state_after_fetch fetch) =
    Error (match PredictionResponse.message d with
           | Some m => if (m =? "")%string then "Failed to fetch predictions" else m
           | None => "Failed to fetch predictions"
           end) /\
  retrievalState
    (state_after_fetch (settles_to (Normal (mkResponse (status r) (Normal payload_B)))))
  = Error "model not trained".
Proof.
  intros Hf Hj Hs. split; [|reflexivity].
  rewrite retrievalState_after_fetch, Hf, Hj, Hs. reflexivity.
Qed.

Lemma server_reported_failure_witness :
  retrievalState
    (state_after_fetch (settles_to (Normal (mkResponse 200 (Normal payload_B)))))
  = Error "model not trained".
Proof.
  apply (@server_reported_failure
           (settles_to (Normal (mkResponse 200 (Normal payload_B))))
           (mkResponse 200 (Normal payload_B)) payload_B);
    reflexivity.
Defined.

(** ** Failure of the transport *)

(** C7. If the request throws or is rejected before any response is
    obtained, the final state is [Error] with the connectivity message;
    the routine itself always completes normally, whatever the network
    does, so nothing is thrown out of it; and every path on which the body
    of the [try] throws ends in that same [Error] state. *)
Theorem transport_failure_ends_in_Error (fetch : Network) :
  snd (fetchPredictions fetch) = Normal tt /\
  (forall reason, fetch endpoint = Throw reason ->
     retrievalState (state_after_fetch fetch) = Error connectivity_message) /\
  (forall reason, snd (fetchPredictions_body fetch) = Throw reason ->
     retrievalState (state_after_fetch fetch) = Error connectivity_message) /\
  retrievalState (state_after_fetch fetch) <> Loading.
Proof.
  split; [apply fetchPredictions_completes|].
  assert (Hrej : forall reason, fetch endpoint = Throw reason ->
            retrievalState (state_after_fetch fetch) = Error connectivity_message).
  { intros reason Hf. now rewrite retrievalState_after_fetch, Hf. }
  split; [exact Hrej | split].
  - intros reason Hthrow.
    destruct (fetchPredictions_body_throws fetch Hthrow) as [Hf|(r & Hf & Hj)].
    + now apply Hrej with reason.
    + now rewrite retrievalState_after_fetch, Hf, Hj.
  - rewrite retrievalState_after_fetch.
    destruct (fetch endpoint) as [r|e]; [|discriminate].
    destruct (json r) as [d|e]; [|discriminate].
    destruct (PredictionResponse.success d); discriminate.
Qed.

Lemma transport_failure_ends_in_Error_witness :
  snd (fetchPredictions unreachable) = Normal tt /\
  retrievalState (state_after_fetch unreachable) = Error "Error connecting to the server".
Proof.
  destruct (transport_failure_ends_in_Error unreachable) as (Hdone & Hrej & _).
  split; [exact Hdone | apply (Hrej "Failed to fetch"); reflexivity].
Defined.

(** ** Responses with a status other than 200 *)

(** C8, as stated, fails: a response with status 500 whose body is the
    success payload of Scenario A ends in [Ready]. *)
Lemma status_500_reaches_Ready :
  retrievalState
    (state_after_fetch (settles_to (Normal (mkResponse 500 (Normal payload_A)))))
  = Ready [point_2024_01_01] "http://localhost:5000/plot.png".
Proof. reflexivity. Qed.

(** C8, amended. The status of a response is not inspected: a response
    leads to the same final state as a response with status 200 and the
    same body.  Whatever its status, a response ends in [Error] with the
    connectivity message when its body is not JSON, in [Error] with the
    payload's message (or the fallback text) when the success flag is
    false, and in [Ready] when the flag is true. *)
Theorem status_is_not_inspected (fetch : Network) (r : Response) :
  fetch endpoint = Normal r ->
  state_after_fetch fetch =
    state_after_fetch (settles_to (Normal (mkResponse 200 (json r)))) /\
  retrievalState (state_after_fetch fetch) =
    match json r with
    | Throw _ => Error connectivity_message
    | Normal d =>
        if PredictionResponse.success d then
          Ready (PredictionResponse.predictions d)
                ("http://localhost:5000" ++ PredictionResponse.plot_url d)%string
        else
          Error (logical_or (PredictionResponse.message d) "Failed to fetch predictions")
    end.
Proof.
  intros Hf. split.
  - unfold state_after_fetch. rewrite !fetchPredictions_calls, Hf. reflexivity.
  - now rewrite retrievalState_after_fetch, Hf.
Qed.

Lemma status_is_not_inspected_witness :
  state_after_fetch (settles_to (Normal (mkResponse 503 (Throw "Unexpected token <")))) =
    state_after_fetch (settles_to (Normal (mkResponse 200 (Throw "Unexpected token <")))) /\
  retrievalState
    (state_after_fetch (settles_to (Normal (mkResponse 503 (Throw "Unexpected token <")))))
  = Error "Error connecting to the server".
Proof.
  apply (@status_is_not_inspected
           (settles_to (Normal (mkResponse 503 (Throw "Unexpected token <"))))
           (mkResponse 503 (Throw "Unexpected token <"))).
  reflexivity.
Defined.

(** ** Base location *)

(** C5, evaluated on the code: whatever the build mode, the chart source
    built from Scenario A's payload is "http://localhost:5000/plot.png",
    which is not the configured base location followed by "/plot.png"; the
    request goes to "http://localhost:5000/api/predictions", which is not
    the configured endpoint; and against a backend that answers at the
    configured endpoint only, the routine ends in [Error]. *)
Theorem base_location_is_not_the_configured_one (NODE_ENV : option string) :
  let answer := mkResponse 200 (Normal payload_A) in
  plotUrl (state_after_fetch (settles_to (Normal answer)))
    = "http://localhost:5000/plot.png" /\
  plotUrl (state_after_fetch (settles_to (Normal answer)))
    <> configured_chart_source NODE_ENV (PredictionResponse.plot_url payload_A) /\
  endpoint <> configured_endpoint NODE_ENV /\
  retrievalState (state_after_fetch (backend_at (configured_endpoint NODE_ENV) answer))
    = Error connectivity_message.
Proof.
  unfold configured_chart_source, configured_endpoint, config.apiUrl.
  destruct NODE_ENV as [mode|]; [destruct (mode =? "production")%string|];
    (split; [reflexivity | split; [ | split; [ | reflexivity]]]);
    vm_compute; discriminate.
Qed.

(** In production the configured base location is the deployed host, in
    every other mode the development host. *)
Example config_apiUrl_modes :
  config.apiUrl (Some "production") = "https://btc-predictor-backend.onrender.com" /\
  config.apiUrl (Some "development") = "http://localhost:10000" /\
  config.apiUrl None = "http://localhost:10000".
Proof. repeat split. Qed.

(** ** Unmounting while the request is outstanding *)


Lemma dispatch_all_unmounted (calls : list SetterCall) (i : Instance) :
  mounted i = false ->
  let i' := fold_left dispatch calls i in
  mounted i' = false /\ cells i' = cells i /\ updates i' = updates i /\
  calls_made i' = calls_made i ++ calls.
Proof.
  revert i. induction calls as [|c calls IH]; intros i Hm; simpl.
  - now rewrite app_nil_r.
  - assert (Hd : dispatch i c =
                 mkInstance false (outstanding i) (cells i) (calls_made i ++ [c]) (updates i))
      by (unfold dispatch; now rewrite Hm).
    destruct (IH (dispatch i c)) as (H1 & H2 & H3 & H4); [now rewrite Hd|].
    rewrite H1, H2, H3, H4, Hd. simpl. now rewrite <- app_assoc.
Qed.



(** The component does nothing to cancel: the rest of the routine runs
    after the unmount and makes its setter calls all the same. *)
Lemma routine_runs_after_unmount (fetch : Network) :
  calls_made (run [Unmount; Settle fetch]) = fst (fetchPredictions fetch).
Proof.
  unfold run; simpl.
  match goal with
  | |- context [fold_left dispatch ?calls ?j] =>
      destruct (@dispatch_all_unmounted calls j eq_refl) as (_ & _ & _ & H)
  end.
  now rewrite H.
Qed.


(** ** Chart dataset *)

Section Presentation.
Context `{Locale}.

(** C9. For every series, the empty one included, the chart dataset has
    one label and one value per point, in series order: the labels and
    the values each have the length of the series, the i-th label is the
    formatted date of the i-th point, the i-th value is its price, and
    past the end of the series there is neither. *)
Theorem chart_data_follows_series (predictions : list Prediction) :
  let chart := PriceChart_data predictions in
  List.length (labels chart) = List.length predictions /\
  List.length (chart_values chart) = List.length predictions /\
  (forall i : nat,
     nth_error (labels chart) i =
     option_map (fun p => toLocaleDateString (Date p)) (nth_error predictions i)) /\
  (forall i : nat,
     nth_error (chart_values chart) i =
     option_map Predicted_Price (nth_error predictions i)) /\
  labels (PriceChart_data []) = [] /\
  chart_values (PriceChart_data []) = [].
Proof.
  cbv zeta. unfold chart_values, PriceChart_data; simpl.
  rewrite app_nil_r, !length_map.
  repeat apply conj; try reflexivity; intros i; apply nth_error_map.
Qed.

(** ** Table body *)

Lemma nth_error_indexed (A B : Type) (f : A -> nat -> B) (l : list A)
    (from i : nat) :
  nth_error (map (fun ix => f (snd ix) (fst ix)) (combine (seq from (List.length l)) l)) i
  = option_map (fun a => f a (from + i)%nat) (nth_error l i).
Proof.
  revert from i. induction l as [|a l IH]; intros from [|i]; simpl; trivial.
  - now rewrite Nat.add_0_r.
  - rewrite IH. now rewrite Nat.add_succ_r.
Qed.

Lemma Array_map_indexed_nth (A B : Type) (f : A -> nat -> B) (l : list A) (i : nat) :
  nth_error (Array_map_indexed f l) i = option_map (fun a => f a i) (nth_error l i).
Proof. unfold Array_map_indexed. now rewrite nth_error_indexed. Qed.

Lemma Array_map_indexed_length (A B : Type) (f : A -> nat -> B) (l : list A) :
  List.length (Array_map_indexed f l) = List.length l.
Proof.
  unfold Array_map_indexed.
  rewrite length_map, length_combine, length_seq. apply Nat.min_id.
Qed.

(** The three states of the specification are the three branches of the
    render function. *)
Lemma retrievalState_matches_view (pageSize : Z) (st : HomeState) :
  Home_render pageSize st =
  match retrievalState st with
  | Loading => Spinner
  | Error reason => ErrorPanel reason
  | Ready series _ =>
      Dashboard (PriceChart_data series) (Array_map_indexed table_row series)
  end.
Proof.
  unfold Home_render, retrievalState.
  destruct (loading st); [reflexivity|]. now destruct (truthy (error st)).
Qed.

(** C10. In every state past loading and without an error, and for every
    page size and page index, the table body has exactly one row per
    point of the whole series, in series order; the view does not change
    with the page index or the page size, so neither [getCurrentItems] nor
    [totalPages] reaches the rendered output. *)
Theorem table_shows_whole_series (pageSize : Z) (st : HomeState) :
  loading st = false ->
  truthy (error st) = false ->
  let view := Home_render pageSize st in
  tbody_of view = Array_map_indexed table_row (predictions st) /\
  List.length (tbody_of view) = List.length (predictions st) /\
  (forall i : nat,
     nth_error (tbody_of view) i =
     option_map (fun p => table_row p i) (nth_error (predictions st) i)) /\
  (forall pageSize' page' : Z,
     Home_render pageSize' (apply_call st (setCurrentPage page')) = view).
Proof.
  intros Hl He. unfold Home_render. rewrite Hl, He. simpl.
  repeat apply conj.
  - reflexivity.
  - apply Array_map_indexed_length.
  - intros i. apply Array_map_indexed_nth.
  - intros pageSize' page'. now rewrite Hl, He.
Qed.

End Presentation.

Lemma table_shows_whole_series_witness :
  let st := apply_call
              (state_after_fetch
                 (settles_to (Normal (mkResponse 200
                    (Normal (PredictionResponse.make true series17 "/plot.png" None))))))
              (setCurrentPage 1) in
  List.length (tbody_of (@Home plain_locale st)) = 17%nat /\
  @Home plain_locale (apply_call st (setCurrentPage 2)) = @Home plain_locale st.
Proof.
  intros st.
  destruct (@table_shows_whole_series plain_locale itemsPerPage st eq_refl eq_refl)
    as (_ & Hlen & _ & Hpage).
  split; [exact Hlen | exact (Hpage itemsPerPage 2)].
Defined.

(** ** Paginator: where each point is shown *)

Lemma getCurrentItems_nth (pageSize : Z) (i j : nat) (predictions : list Prediction) :
  0 < pageSize ->
  nth_error (getCurrentItems pageSize (Z.of_nat i) predictions) j =
  if (j <? Z.to_nat pageSize)%nat
  then nth_error predictions (i * Z.to_nat pageSize + j)
  else None.
Proof.
  intros Hp. rewrite getCurrentItems_in_range by assumption.
  rewrite nth_error_firstn. destruct (j <? Z.to_nat pageSize)%nat; [|reflexivity].
  apply nth_error_skipn.
Qed.

(** X1. For a page size above zero and a page index in [0, totalPages),
    the page is never empty and never longer than the page size: it has
    [min pageSize (L - pageIndex * pageSize)] points, which is the full
    page size on every page but the last. *)
Theorem in_range_page_length (pageSize pageIndex : Z) (predictions : list Prediction) :
  0 < pageSize ->
  0 <= pageIndex < totalPages pageSize predictions ->
  let L := Z.of_nat (List.length predictions) in
  let n := Z.of_nat (List.length (getCurrentItems pageSize pageIndex predictions)) in
  n = Z.min pageSize (L - pageIndex * pageSize) /\
  1 <= n <= pageSize /\
  (pageIndex < totalPages pageSize predictions - 1 -> n = pageSize).
Proof.
  intros Hp [Hlo Hhi] L n.
  assert (Hb : (totalPages pageSize predictions - 1) * pageSize < L
               <= totalPages pageSize predictions * pageSize)
    by (apply Math_ceil_div_bounds; exact Hp).
  assert (Hn : n = Z.min pageSize (L - pageIndex * pageSize)).
  { unfold n. rewrite <- (Z2Nat.id pageIndex) at 1 by assumption.
    rewrite getCurrentItems_in_range by assumption.
    rewrite length_firstn, length_skipn. unfold L. nia. }
  split; [exact Hn|]. split; [nia|]. intros Hinner. nia.
Qed.

Lemma in_range_page_length_witness :
  Z.of_nat (List.length (getCurrentItems 8 2 series17)) = Z.min 8 (17 - 2 * 8) /\
  Z.of_nat (List.length (getCurrentItems 8 1 series17)) = 8.
Proof.
  split.
  - apply (@in_range_page_length 8 2 series17); [reflexivity | vm_compute; intuition discriminate].
  - apply (@in_range_page_length 8 1 series17); [reflexivity | vm_compute; intuition discriminate | reflexivity].
Defined.

(** X2. For a page size above zero, row [j] of page [i] is the point at
    position [i * pageSize + j] of the series when [j] is below the page
    size, and there is no row [j] otherwise. *)
Theorem page_row_is_series_point (pageSize : Z) (i j : nat)
    (predictions : list Prediction) :
  0 < pageSize ->
  nth_error (getCurrentItems pageSize (Z.of_nat i) predictions) j =
  if Z.of_nat j <? pageSize
  then nth_error predictions (Z.to_nat (Z.of_nat i * pageSize + Z.of_nat j))
  else None.
Proof.
  intros Hp. rewrite getCurrentItems_nth by assumption.
  destruct (Z.ltb_spec (Z.of_nat j) pageSize) as [Hj|Hj].
  - replace (j <? Z.to_nat pageSize)%nat with true by (symmetry; apply Nat.ltb_lt; lia).
    f_equal. nia.
  - replace (j <? Z.to_nat pageSize)%nat with false by (symmetry; apply Nat.ltb_ge; lia).
    reflexivity.
Qed.

Lemma page_row_is_series_point_witness :
  nth_error (getCurrentItems 8 1 series17) 2 = nth_error series17 10.
Proof. apply (@page_row_is_series_point 8 1 2 series17). reflexivity. Defined.

(** X3. For a page size above zero, the point at position [k] of the
    series is shown on the page [k / pageSize], in the row [k mod pageSize]
    (integer quotient and remainder). *)
Theorem point_is_on_its_page (pageSize : Z) (k : nat) (predictions : list Prediction) :
  0 < pageSize ->
  nth_error (getCurrentItems pageSize (Z.of_nat k / pageSize) predictions)
            (Z.to_nat (Z.of_nat k mod pageSize))
  = nth_error predictions k.
Proof.
  intros Hp.
  pose proof (Z.div_pos (Z.of_nat k) pageSize (Nat2Z.is_nonneg k) Hp) as Hq.
  pose proof (Z.mod_pos_bound (Z.of_nat k) pageSize Hp) as Hr.
  pose proof (Z.div_mod (Z.of_nat k) pageSize) as Hk.
  rewrite <- (Z2Nat.id (Z.of_nat k / pageSize)) at 1 by assumption.
  rewrite getCurrentItems_nth by assumption.
  replace (Z.to_nat (Z.of_nat k mod pageSize) <? Z.to_nat pageSize)%nat with true
    by (symmetry; apply Nat.ltb_lt; lia).
  f_equal. nia.
Qed.

Lemma point_is_on_its_page_witness :
  nth_error (getCurrentItems 8 (16 / 8) series17) (Z.to_nat (16 mod 8))
  = nth_error series17 16.
Proof. apply (@point_is_on_its_page 8 16 series17). reflexivity. Defined.

(** ** Paginator: any page index *)

Lemma slice_is_segment (A : Type) (l : list A) (s e : Z) :
  exists before after : list A, l = before ++ slice l s e ++ after.
Proof.
  unfold slice.
  match goal with
  | |- context [firstn ?count (skipn ?k l)] =>
      exists (firstn k l), (skipn count (skipn k l));
      rewrite (firstn_skipn count (skipn k l)), (firstn_skipn k l)
  end.
  reflexivity.
Qed.

(** X4. For a page size above zero and any page index at all, in range or
    not, what [getCurrentItems] returns is a run of consecutive points of
    the series, of at most [pageSize] points. *)
Theorem getCurrentItems_is_short_run (pageSize pageIndex : Z)
    (predictions : list Prediction) :
  0 < pageSize ->
  (exists before after : list Prediction,
     predictions = before ++ getCurrentItems pageSize pageIndex predictions ++ after) /\
  Z.of_nat (List.length (getCurrentItems pageSize pageIndex predictions)) <= pageSize.
Proof.
  intros Hp. split; [apply slice_is_segment|].
  unfold getCurrentItems, slice. rewrite length_firstn.
  set (len := Z.of_nat (List.length predictions)).
  assert (Hlen : 0 <= len) by apply Nat2Z.is_nonneg.
  destruct (Z.ltb_spec (pageIndex * pageSize) 0) as [Hs|Hs];
    destruct (Z.ltb_spec (pageIndex * pageSize + pageSize) 0) as [He|He];
    lia.
Qed.

Lemma getCurrentItems_is_short_run_witness :
  (exists before after : list Prediction,
     series17 = before ++ getCurrentItems 8 (-2) series17 ++ after) /\
  Z.of_nat (List.length (getCurrentItems 8 (-2) series17)) <= 8.
Proof. apply (@getCurrentItems_is_short_run 8 (-2) series17). reflexivity. Defined.

(** ** Paginator: page count *)

(** X5. For a page size above zero: there is no page exactly when the
    series is empty, there is one page exactly when the series is not
    empty and fits in a page, and there are never more pages than
    points. *)
Theorem totalPages_small_series (pageSize : Z) (predictions : list Prediction) :
  0 < pageSize ->
  let L := Z.of_nat (List.length predictions) in
  (totalPages pageSize predictions = 0 <-> predictions = []) /\
  (totalPages pageSize predictions = 1 <-> 0 < L <= pageSize) /\
  totalPages pageSize predictions <= L.
Proof.
  intros Hp L.
  assert (Hb : (totalPages pageSize predictions - 1) * pageSize < L
               <= totalPages pageSize predictions * pageSize)
    by (apply Math_ceil_div_bounds; exact Hp).
  assert (HL : 0 <= L) by apply Nat2Z.is_nonneg.
  repeat apply conj.
  - intros Hz. rewrite Hz in Hb. apply length_zero_iff_nil. lia.
  - intros ->. apply totalPages_nil.
  - intros H1. rewrite H1 in Hb. lia.
  - intros HLp. nia.
  - nia.
Qed.

Lemma totalPages_small_series_witness :
  (totalPages 8 [point_2024_01_01] = 0 <-> [point_2024_01_01] = []) /\
  (totalPages 8 [point_2024_01_01] = 1 <-> 0 < 1 <= 8) /\
  totalPages 8 [point_2024_01_01] <= 1.
Proof. apply (@totalPages_small_series 8 [point_2024_01_01]). reflexivity. Defined.

(** X6. For a page size above zero, adding points to a series never
    lowers the page count, and the page count of two series put end to end
    is at most the sum of their page counts; so one more point adds at
    most one page. *)
Theorem totalPages_append (pageSize : Z) (series more : list Prediction) :
  0 < pageSize ->
  totalPages pageSize series <= totalPages pageSize (series ++ more) /\
  totalPages pageSize (series ++ more)
    <= totalPages pageSize series + totalPages pageSize more.
Proof.
  intros Hp. unfold totalPages. rewrite length_app, Nat2Z.inj_add.
  pose proof (Math_ceil_div_bounds (Z.of_nat (List.length series)) Hp) as H1.
  pose proof (Math_ceil_div_bounds (Z.of_nat (List.length more)) Hp) as H2.
  pose proof (Math_ceil_div_bounds
                (Z.of_nat (List.length series) + Z.of_nat (List.length more)) Hp) as H3.
  pose proof (Nat2Z.is_nonneg (List.length series)).
  pose proof (Nat2Z.is_nonneg (List.length more)).
  split; nia.
Qed.

Lemma totalPages_append_witness :
  totalPages 8 series17 <= totalPages 8 (series17 ++ [point_2024_01_01]) /\
  totalPages 8 (series17 ++ [point_2024_01_01])
    <= totalPages 8 series17 + totalPages 8 [point_2024_01_01].
Proof. apply (@totalPages_append 8 series17 [point_2024_01_01]). reflexivity. Defined.

(** ** The fetch routine: what it leaves behind *)

(** X7. Whatever the network does, when the routine has run the state is
    no longer loading and holds either data or an error, never both: either
    no error is set and the series and the chart source are those of a
    payload whose success flag is true, or an error text is set, that text
    is not empty, and the series and the chart source still have their
    initial empty values. *)
Theorem fetch_leaves_data_or_error (fetch : Network) :
  let st := state_after_fetch fetch in
  loading st = false /\
  ((error st = None /\
    exists (r : Response) (d : PredictionResponse.t),
      fetch endpoint = Normal r /\ json r = Normal d /\
      PredictionResponse.success d = true /\
      predictions st = PredictionResponse.predictions d /\
      plotUrl st = ("http://localhost:5000" ++ PredictionResponse.plot_url d)%string)
   \/
   (exists m : string,
      error st = Some m /\ m <> "" /\ predictions st = [] /\ plotUrl st = "")).
Proof.
  unfold state_after_fetch. rewrite fetchPredictions_calls.
  destruct (fetch endpoint) as [r|e] eqn:Hf.
  - destruct (json r) as [d|e] eqn:Hj.
    + destruct (PredictionResponse.success d) eqn:Hs; simpl.
      * split; [reflexivity|]. left. split; [reflexivity|].
        exists r, d. now rewrite Hj, Hs.
      * split; [reflexivity|]. right.
        exists (logical_or (PredictionResponse.message d) "Failed to fetch predictions").
        repeat split. apply String.eqb_neq, logical_or_nonempty. discriminate.
    + simpl. split; [reflexivity|]. right. exists connectivity_message.
      repeat split. discriminate.
  - simpl. split; [reflexivity|]. right. exists connectivity_message.
    repeat split. discriminate.
Qed.

(** X8. The routine never sets the page index and never turns loading
    back on; so after it the page index is still 0, and the current items
    are the first eight points of the series (all of them when there are
    fewer). *)
Theorem fetch_keeps_first_page (fetch : Network) :
  let calls := fst (fetchPredictions fetch) in
  let st := state_after_fetch fetch in
  (forall n : Z, ~ In (setCurrentPage n) calls) /\
  ~ In (setLoading true) calls /\
  currentPage st = 0 /\
  getCurrentItems itemsPerPage (currentPage st) (predictions st)
    = firstn 8 (predictions st).
Proof.
  cbv zeta.
  assert (Hpage : currentPage (state_after_fetch fetch) = 0).
  { unfold state_after_fetch. rewrite fetchPredictions_calls.
    destruct (fetch endpoint) as [r|e]; [|reflexivity].
    destruct (json r) as [d|e]; [|reflexivity].
    destruct (PredictionResponse.success d); reflexivity. }
  repeat apply conj.
  - intros n. rewrite fetchPredictions_calls.
    destruct (fetch endpoint) as [r|e];
      [destruct (json r) as [d|e]; [destruct (PredictionResponse.success d)|]|];
      simpl; intuition discriminate.
  - rewrite fetchPredictions_calls.
    destruct (fetch endpoint) as [r|e];
      [destruct (json r) as [d|e]; [destruct (PredictionResponse.success d)|]|];
      simpl; intuition discriminate.
  - exact Hpage.
  - rewrite Hpage. change 0 with (Z.of_nat 0).
    rewrite getCurrentItems_in_range by reflexivity. reflexivity.
Qed.

(** ** Navigation bar *)

Lemma highlighted_menu_link (target text : string) (active : bool) :
  highlighted (mkNavLink target (menu_className active) text) = active.
Proof. now destruct active. Qed.

(** X10. For every pathname, a menu link is highlighted exactly when its
    target is the pathname, compared exactly: "Home" on "/", "About" on
    "/about", and no link on any other path; the two are never highlighted
    together. *)
Theorem menu_highlights_current_path (pathname : string) :
  map highlighted (Navbar_menu pathname)
    = [(pathname =? "/")%string; (pathname =? "/about")%string] /\
  (forall l : NavLink, In l (Navbar_menu pathname) ->
     (highlighted l = true <-> to l = pathname)) /\
  (List.length (filter highlighted (Navbar_menu pathname)) <= 1)%nat /\
  (pathname <> "/" -> pathname <> "/about" ->
     filter highlighted (Navbar_menu pathname) = []).
Proof.
  unfold Navbar_menu.
  repeat apply conj.
  - simpl. now rewrite !highlighted_menu_link.
  - intros l [<-|[<-|[]]]; rewrite highlighted_menu_link; simpl;
      rewrite String.eqb_eq; split; congruence.
  - simpl. rewrite !highlighted_menu_link.
    destruct (String.eqb_spec pathname "/") as [->|_]; simpl.
    + reflexivity.
    + destruct (pathname =? "/about")%string; simpl; lia.
  - intros H1 H2. simpl. rewrite !highlighted_menu_link.
    apply String.eqb_neq in H1, H2. now rewrite H1, H2.
Qed.

Lemma menu_highlights_current_path_witness :
  filter highlighted (Navbar_menu "/about/") = [].
Proof. apply (menu_highlights_current_path "/about/"); discriminate. Defined.

(** ** The view: from the network to the screen *)

Section Screen.
Context `{Locale}.

(** X11. A freshly mounted [Home] shows the spinner. Once the routine has
    run it never does: it shows the error panel with the connectivity text
    when the request or the parsing of the body failed, the error panel
    with the backend's message (or the fallback text) when the success flag
    is false, and otherwise the dashboard, with the chart and one table row
    per point of the payload's series. *)
Theorem view_after_fetch (fetch : Network) :
  Home initialState = Spinner /\
  Home (state_after_fetch fetch) <> Spinner /\
  Home (state_after_fetch fetch) =
    match fetch endpoint with
    | Throw _ => ErrorPanel connectivity_message
    | Normal r =>
        match json r with
        | Throw _ => ErrorPanel connectivity_message
        | Normal d =>
            if PredictionResponse.success d then
              Dashboard (PriceChart_data (PredictionResponse.predictions d))
                        (Array_map_indexed table_row (PredictionResponse.predictions d))
            else
              ErrorPanel (logical_or (PredictionResponse.message d)
                                     "Failed to fetch predictions")
        end
    end.
Proof.
  unfold Home.
  split; [reflexivity|].
  rewrite retrievalState_matches_view, retrievalState_after_fetch.
  destruct (fetch endpoint) as [r|e]; [|split; [discriminate | reflexivity]].
  destruct (json r) as [d|e]; [|split; [discriminate | reflexivity]].
  destruct (PredictionResponse.success d); split; (discriminate || reflexivity).
Qed.

(** X12. Table rows are on screen only in a state that is past loading,
    has no error text, and has points: for every state, the rendered table
    body is empty exactly when the state is loading, or carries a non-empty
    error text, or has an empty series. *)
Theorem table_body_empty_iff (pageSize : Z) (st : HomeState) :
  tbody_of (Home_render pageSize st) = [] <->
  loading st = true \/ truthy (error st) = true \/ predictions st = [].
Proof.
  unfold Home_render.
  destruct (loading st); [simpl; intuition|].
  destruct (truthy (error st)); [simpl; intuition|].
  simpl. split.
  - intros Hrows. right; right. apply length_zero_iff_nil.
    rewrite <- (Array_map_indexed_length table_row). now rewrite Hrows.
  - intros [Hl|[He|Hp]]; try discriminate. now rewrite Hp.
Qed.

Lemma Array_map_indexed_pointwise (A B C : Type) (f : A -> nat -> B)
    (g : B -> C) (h : A -> C) (l : list A) :
  (forall a i, g (f a i) = h a) ->
  map g (Array_map_indexed f l) = map h l.
Proof.
  intros Hgf. unfold Array_map_indexed. generalize 0%nat as from.
  induction l as [|a l IH]; intros from; simpl; [reflexivity|].
  now rewrite Hgf, IH.
Qed.

Lemma Array_map_indexed_keys (A B : Type) (f : A -> nat -> B) (k : B -> nat)
    (l : list A) :
  (forall a i, k (f a i) = i) ->
  map k (Array_map_indexed f l) = seq 0 (List.length l).
Proof.
  intros Hk. unfold Array_map_indexed. generalize 0%nat as from.
  induction l as [|a l IH]; intros from; simpl; [reflexivity|].
  now rewrite Hk, IH.
Qed.

(** X13. In a state past loading and without an error text, the keys of
    the table rows are the positions 0, 1, ..., L-1 in order, so no two rows
    share a key, also when two points carry the same date. *)
Theorem row_keys_are_positions (pageSize : Z) (st : HomeState) :
  loading st = false ->
  truthy (error st) = false ->
  map key (tbody_of (Home_render pageSize st)) = seq 0 (List.length (predictions st)) /\
  NoDup (map key (tbody_of (Home_render pageSize st))).
Proof.
  intros Hl He.
  assert (Hkeys : map key (tbody_of (Home_render pageSize st))
                  = seq 0 (List.length (predictions st))).
  { unfold Home_render. rewrite Hl, He. simpl.
    now apply Array_map_indexed_keys. }
  split; [exact Hkeys|]. rewrite Hkeys. apply seq_NoDup.
Qed.

(** X14. In a state past loading and without an error text the dashboard
    is shown, and its chart and its table agree row by row: the labels of
    the chart are the date cells of the table, and the tooltip text of each
    plotted value is the price cell of the same row. *)
Theorem chart_agrees_with_table (pageSize : Z) (st : HomeState) :
  loading st = false ->
  truthy (error st) = false ->
  exists (chart : ChartData) (rows : list Row),
    Home_render pageSize st = Dashboard chart rows /\
    labels chart = map date_cell rows /\
    map tooltip_label (chart_values chart) = map price_cell rows.
Proof.
  intros Hl He. unfold Home_render. rewrite Hl, He.
  eexists. eexists. split; [reflexivity|].
  unfold chart_values, PriceChart_data; simpl. rewrite app_nil_r.
  split.
  - symmetry. now apply Array_map_indexed_pointwise.
  - rewrite map_map. symmetry. now apply Array_map_indexed_pointwise.
Qed.

End Screen.

Lemma row_keys_are_positions_witness :
  map key (tbody_of (@Home_render plain_locale 8
                       (state_after_fetch
                          (settles_to (Normal (mkResponse 200 (Normal payload_A)))))))
  = [0%nat].
Proof.
  apply (@row_keys_are_positions plain_locale 8
           (state_after_fetch (settles_to (Normal (mkResponse 200 (Normal payload_A))))));
    reflexivity.
Defined.

Lemma chart_agrees_with_table_witness :
  exists (chart : ChartData) (rows : list Row),
    @Home_render plain_locale 8
      (state_after_fetch (settles_to (Normal (mkResponse 200 (Normal payload_A)))))
    = Dashboard chart rows /\
    labels chart = map date_cell rows /\
    map (@tooltip_label plain_locale) (chart_values chart) = map price_cell rows.
Proof.
  apply (@chart_agrees_with_table plain_locale 8
           (state_after_fetch (settles_to (Normal (mkResponse 200 (Normal payload_A))))));
    reflexivity.
Defined.
